(** * theme-skins: the example components and the token-resolution model

    The development has two halves.

    - The three example components ([Button], [SearchBar], [Dropdown]) are
      embedded from their TSX sources: props become records, the JSX a
      component returns becomes a tree of [Node]s, React state and callbacks
      become explicit state passing with a log of effects.
    - The resolution engine of the prose specification (Cascade Evaluator)
      has no source in the repository; it is modelled from the specification
      in [Module Cascade]. *)

From stdpp Require Import base gmap strings list.
From Stdlib Require Import Ascii String.

Set Warnings "-register-all,-clear-no-such-hyp".
Open Scope string_scope.

(** ** Class-name strings *)

Module ClassNames.

(** Pieces of [s] between occurrences of [sep] (always at least one piece). *)
Fixpoint split_on (sep : ascii) (s : string) : list string :=
  match s with
  | EmptyString => [EmptyString]
  | String c r =>
      if Ascii.eqb c sep then EmptyString :: split_on sep r
      else match split_on sep r with
           | w :: ws => String c w :: ws
           | [] => [String c EmptyString]
           end
  end.

Definition nonempty (s : string) : bool :=
  match s with EmptyString => false | _ => true end.

(** The class tokens of a [className] string. *)
Definition tokens (s : string) : list string :=
  List.filter nonempty (split_on " "%char s).

(** A token is [variant:...:utility]; the utility is the last piece. *)
Definition utility (tok : string) : string :=
  List.last (split_on ":"%char tok) EmptyString.

Fixpoint drop_chars (n : nat) (s : string) : string :=
  match n, s with
  | S n', String _ r => drop_chars n' r
  | _, _ => s
  end.

(** [name)] gives [name]; anything not closed by a final parenthesis is
    rejected. *)
Fixpoint close_paren (s : string) : option string :=
  match s with
  | EmptyString => None
  | String c r =>
      match r with
      | EmptyString => if Ascii.eqb c ")"%char then Some EmptyString else None
      | _ => match close_paren r with
             | Some n => Some (String c n)
             | None => None
             end
      end
  end.

(** A skin hook is a utility of the shape [prop-(--var)]: the Tailwind
    property [prop] filled from the CSS custom property [--var]. *)
Record Hook := { hook_prop : string; hook_var : string }.

Fixpoint parse_hook (u : string) : option Hook :=
  match u with
  | EmptyString => None
  | String c r =>
      if String.prefix "-(--" u then
        match close_paren (drop_chars 4 u) with
        | Some v => Some {| hook_prop := EmptyString; hook_var := v |}
        | None => None
        end
      else
        match parse_hook r with
        | Some h => Some {| hook_prop := String c (hook_prop h);
                            hook_var := hook_var h |}
        | None => None
        end
  end.

Definition hooks (s : string) : list Hook :=
  omap (fun tok => parse_hook (utility tok)) (tokens s).

(** Independent scan for custom properties: every [--name] in the text,
    whatever surrounds it. *)
Inductive ScanState :=
| Idle
| Dash1
| InName (acc : string).

Definition ident_char (c : ascii) : bool :=
  let n := nat_of_ascii c in
  (((97 <=? n) && (n <=? 122)) || ((65 <=? n) && (n <=? 90))
   || ((48 <=? n) && (n <=? 57)) || (n =? 45) || (n =? 95))%nat.

Fixpoint scan (st : ScanState) (s : string) : list string :=
  match s with
  | EmptyString =>
      match st with InName acc => [acc] | _ => [] end
  | String c r =>
      match st with
      | Idle => scan (if Ascii.eqb c "-"%char then Dash1 else Idle) r
      | Dash1 => scan (if Ascii.eqb c "-"%char then InName EmptyString else Idle) r
      | InName acc =>
          if ident_char c then scan (InName (acc ++ String c EmptyString)) r
          else acc :: scan Idle r
      end
  end.

Definition custom_props (s : string) : list string := scan Idle s.

(** The hook names the prose specification lists ([bg], [text], [ring],
    [outline]), with [border], which the Dropdown button also uses. *)
Definition vocabulary : list string :=
  ["bg"; "text"; "ring"; "outline"; "border"].

Definition hook_ok (h : Hook) : bool :=
  String.eqb (hook_prop h) (hook_var h)
  && bool_decide (hook_var h ∈ vocabulary).

(** Every custom property of [s] sits in a hook, is named after the
    Tailwind property it fills, and belongs to the vocabulary. *)
Definition skin_ok (s : string) : bool :=
  forallb hook_ok (hooks s)
  && bool_decide (custom_props s = map hook_var (hooks s)).

End ClassNames.

(** ** Rendered trees *)

(** An attribute value is a string, or the class list merge [cn(...)] of the
    external utility applied to its arguments (an absent argument is
    [None]; the merge itself is a black box), or some other JavaScript
    value (a function, a component, an object), kept by its source text. *)
Inductive AttrVal :=
| Str (s : string)
| Cn (args : list (option string))
| Js (expr : string).

#[global] Instance AttrVal_eq_dec : EqDecision AttrVal.
Proof. solve_decision. Defined.

Inductive Node :=
| Elem (tag : string) (attrs : list (string * AttrVal)) (children : list Node)
| Text (s : string).

Module Vdom.

(** [{...props}] after the attributes written out: a spread key replaces
    an earlier attribute of the same name. *)
Fixpoint set_attr (k : string) (v : AttrVal) (attrs : list (string * AttrVal))
  : list (string * AttrVal) :=
  match attrs with
  | [] => [(k, v)]
  | (k', v') :: rest =>
      if String.eqb k k' then (k, v) :: rest else (k', v') :: set_attr k v rest
  end.

Definition spread (attrs props : list (string * AttrVal)) : list (string * AttrVal) :=
  fold_left (fun acc kv => set_attr kv.1 kv.2 acc) props attrs.

(** The rest of the props once the named ones are destructured away. *)
Definition without (names : list string) (props : list (string * AttrVal))
  : list (string * AttrVal) :=
  List.filter (fun kv => negb (bool_decide (kv.1 ∈ names))) props.

Fixpoint get_attr (k : string) (attrs : list (string * AttrVal)) : option AttrVal :=
  match attrs with
  | [] => None
  | (k', v) :: rest => if String.eqb k k' then Some v else get_attr k rest
  end.

Definition data_skin (attrs : list (string * AttrVal)) : option string :=
  match get_attr "data-skin" attrs with
  | Some (Str s) => Some s
  | _ => None
  end.

(** All skin identifiers of a tree, in document order. *)
Fixpoint skin_ids (n : Node) : list string :=
  match n with
  | Text _ => []
  | Elem _ attrs children =>
      match data_skin attrs with Some s => [s] | None => [] end
      ++ flat_map skin_ids children
  end.

(** (parent, child) pairs: a skinned element paired with the nearest
    skinned element above it. *)
Fixpoint skin_edges (parent : option string) (n : Node) : list (string * string) :=
  match n with
  | Text _ => []
  | Elem _ attrs children =>
      match data_skin attrs with
      | Some s =>
          match parent with Some p => [(p, s)] | None => [] end
          ++ flat_map (skin_edges (Some s)) children
      | None => flat_map (skin_edges parent) children
      end
  end.

(** The root skin identifier of a component's tree and those below it. *)
Definition root_skin (n : Node) : option string :=
  match n with
  | Elem _ attrs _ => data_skin attrs
  | Text _ => None
  end.

Definition child_skins (n : Node) : list string :=
  match n with
  | Elem _ _ children => flat_map skin_ids children
  | Text _ => []
  end.

(** The class strings on an element itself: the arguments of its class
    list merge, or its literal [className]. *)
Definition own_classes (n : Node) : list string :=
  match n with
  | Elem _ attrs _ =>
      match get_attr "className" attrs with
      | Some (Cn args) => omap id args
      | Some (Str s) => [s]
      | _ => []
      end
  | Text _ => []
  end.

Definition own_custom_props (n : Node) : list string :=
  flat_map ClassNames.custom_props (own_classes n).

(** First element with the given tag, in document order. *)
Fixpoint find_tag (t : string) (n : Node) : option Node :=
  match n with
  | Text _ => None
  | Elem tag _ children =>
      if String.eqb tag t then Some n
      else (fix go (l : list Node) : option Node :=
              match l with
              | [] => None
              | c :: r => match find_tag t c with
                          | Some x => Some x
                          | None => go r
                          end
              end) children
  end.

(** The text content of a tree. *)
Fixpoint text_of (n : Node) : string :=
  match n with
  | Text s => s
  | Elem _ _ children => fold_right (fun c acc => text_of c ++ acc) "" children
  end.

End Vdom.

(** ** Button *)

Module Button.

Inductive Size := sm | md | lg.

(** [size] is the component's own prop; [className], [children] and the
    remaining [props] come with the native button attributes the
    interface extends. *)
Record ButtonProps := {
  size : option Size;
  className : option string;
  children : list Node;
  props : list (string * AttrVal)
}.

Definition baseStyles := "inline-flex items-center justify-center font-medium".

Definition skinStyles := "bg-(--bg) text-(--text)".

Definition sizeStyles (s : Size) : string :=
  match s with
  | sm => "px-3 py-0.5 text-xs rounded-md"
  | md => "px-5 py-1.5 text-sm rounded-lg"
  | lg => "px-7 py-2.5 text-base rounded-xl"
  end.

Definition Button (p : ButtonProps) : Node :=
  let size := default sm (size p) in
  Elem "button"
    (Vdom.spread
       [("data-skin", Str "button");
        ("className", Cn [Some baseStyles; Some skinStyles;
                          Some (sizeStyles size); className p])]
       (Vdom.without ["size"; "className"; "children"] (props p)))
    (children p).

(** Every class string the component writes. *)
Definition styles : list string :=
  [baseStyles; skinStyles; sizeStyles sm; sizeStyles md; sizeStyles lg].

End Button.

(** ** SearchBar *)

Module SearchBar.

Inductive Variant := default_ | outline.

(** [variant] is the component's own prop; the others come with the
    native input attributes the interface extends. *)
Record SearchBarProps := {
  variant : option Variant;
  className : option string;
  children : list Node;
  props : list (string * AttrVal)
}.

Definition containerStyles_base := "flex items-center rounded-full px-4 py-2".

Definition containerStyles_skin (v : Variant) : string :=
  match v with
  | default_ => "bg-(--bg) text-(--text)"
  | outline => "outline outline-(--outline) text-(--text)"
  end.

Definition iconStyles_base := "size-5 mr-2".
Definition iconStyles_skin := "text-(--text)".

Definition inputStyles_base := "bg-transparent outline-none flex-1".
Definition inputStyles_skin := "text-(--text) placeholder:text-(--text)".

Definition SearchBar (p : SearchBarProps) : Node :=
  let variant := default default_ (variant p) in
  Elem "div"
    [("data-skin", Str "searchbar");
     ("className", Cn [Some containerStyles_base;
                       Some (containerStyles_skin variant);
                       className p])]
    [Elem "MagnifyingGlassIcon"
       [("data-skin", Str "icon");
        ("className", Cn [Some iconStyles_base; Some iconStyles_skin])]
       [];
     Elem "input"
       (Vdom.spread
          [("type", Str "search");
           ("className", Cn [Some inputStyles_base; Some inputStyles_skin])]
          (Vdom.without ["variant"; "className"; "children"] (props p)))
       []].

(** Every class string the component writes. *)
Definition styles : list string :=
  [containerStyles_base; containerStyles_skin default_;
   containerStyles_skin outline; iconStyles_base; iconStyles_skin;
   inputStyles_base; inputStyles_skin].

End SearchBar.


(** ** Dropdown *)

Module Dropdown.

Record Option := { label : string; value : string }.

#[global] Instance Option_eq_dec : EqDecision Option.
Proof. solve_decision. Defined.

(** A JavaScript array handed in as a prop: its identity (what the
    dependency list of [useEffect] compares) and its elements. *)
Record Array := { arr_ref : nat; arr_items : list Option }.

(** [onChange] is a callback of the host application; it is known here by
    a name only, and calling it is recorded in the effect log. *)
Definition Callback := nat.

Record DropdownProps := {
  options : Array;
  value_ : option string;
  onChange : option Callback;
  placeholder : option string
}.

(** State of the component: [useState<Option | null>(null)]. *)
Definition State := option Option.

Definition initialState : State := None.

Inductive Effect :=
| SetSelectedOption (o : option Option)
| Call (cb : Callback) (arg : string).

(** [opt.value === v] for a [v] that may be [undefined]. *)
Definition strict_eq (s : string) (v : option string) : bool :=
  match v with
  | Some v' => String.eqb s v'
  | None => false
  end.

(** [options.find((opt) => opt.value === v) || null] *)
Definition find_option (opts : Array) (v : option string) : option Option :=
  List.find (fun opt => strict_eq (value opt) v) (arr_items opts).

Definition handleChange (p : DropdownProps) (val : string) : list Effect :=
  [SetSelectedOption (find_option (options p) (Some val))]
  ++ match onChange p with
     | Some cb => [Call cb val]
     | None => []
     end.

(** The body of the [useEffect]. *)
Definition effect (p : DropdownProps) : list Effect :=
  [SetSelectedOption (find_option (options p) (value_ p))].

(** Dependency list [[options, value]], compared as React does: the array
    by identity, the string by value. *)
Definition deps_changed (prev next : DropdownProps) : bool :=
  negb (Nat.eqb (arr_ref (options prev)) (arr_ref (options next)))
  || negb (bool_decide (value_ prev = value_ next)).

(** Running a list of effects: the new state and the callback calls made,
    in order. *)
Fixpoint run (s : State) (es : list Effect) : State * list (Callback * string) :=
  match es with
  | [] => (s, [])
  | SetSelectedOption o :: rest => run o rest
  | Call cb arg :: rest =>
      let '(s', calls) := run s rest in (s', (cb, arg) :: calls)
  end.

(** First commit: the state starts at [null], then the effect runs. *)
Definition mount (p : DropdownProps) : State :=
  (run initialState (effect p)).1.

(** A later commit with new props: the effect runs again only when a
    dependency changed. *)
Definition rerender (prev : DropdownProps) (s : State) (next : DropdownProps) : State :=
  if deps_changed prev next then (run s (effect next)).1 else s.

(** The user picks the option with value [val] in the list box. *)
Definition select (p : DropdownProps) (s : State) (val : string)
  : State * list (Callback * string) :=
  run s (handleChange p val).

Definition buttonStyles_base := "relative w-full cursor-pointer rounded-md border py-2 pl-3 pr-10 text-left shadow-sm focus:outline-none focus:ring-2 text-sm".
Definition buttonStyles_skin := "border-(--border) bg-(--bg) ring-(--ring) text-(--text)".

Definition chevronStyles_base := "size-5".
Definition chevronStyles_skin := "text-(--text)".

Definition optionsStyles_base := "absolute z-10 mt-1 w-full shadow-lg max-h-60 rounded-md py-1 text-sm ring-1 overflow-auto focus:outline-none".
Definition optionsStyles_skin := "bg-(--bg) ring-(--ring)".

Definition optionStyles_base := "cursor-pointer select-none relative py-2 pl-8 pr-4".
Definition optionStyles_skin := "bg-(--bg) text-(--text)".

Definition checkmarkStyles_base := "absolute inset-y-0 left-0 flex items-center pl-1.5".
Definition checkmarkStyles_skin := "text-(--text)".

(** Every class string the component writes. *)
Definition styles : list string :=
  [buttonStyles_base; buttonStyles_skin; chevronStyles_base;
   chevronStyles_skin; optionsStyles_base; optionsStyles_skin;
   optionStyles_base; optionStyles_skin; checkmarkStyles_base;
   checkmarkStyles_skin; "relative";
   "absolute inset-y-0 right-0 flex items-center pr-2 pointer-events-none";
   "block truncate"; "font-medium"; "font-normal";
   "transition ease-in duration-100"; "opacity-100"; "opacity-0"].

Definition default_placeholder := "Select an option...".

(** [selectedOption?.value || ""] *)
Definition listbox_value (s : State) : string :=
  match s with
  | Some o => value o
  | None => ""
  end.

(** One [ListboxOption]. Its children are a render prop; the list box
    library calls it with [selected] set when the option's value is the
    value of the list box. *)
Definition render_option (current : string) (option : Option) : Node :=
  let selected := String.eqb (value option) current in
  Elem "ListboxOption"
    [("data-skin", Str "dropdown-option");
     ("key", Str (value option));
     ("value", Str (value option));
     ("className", Cn [Some optionStyles_base; Some optionStyles_skin])]
    ([Elem "span"
        [("className", Cn [Some "block truncate";
                           Some (if selected then "font-medium" else "font-normal")])]
        [Text (label option)]]
     ++ if selected then
          [Elem "span"
             [("data-skin", Str "dropdown-option-checkmark");
              ("className", Cn [Some checkmarkStyles_base; Some checkmarkStyles_skin])]
             [Text "✓"]]
        else []).

Definition Dropdown (p : DropdownProps) (selectedOption : State) : Node :=
  let placeholder := default default_placeholder (placeholder p) in
  Elem "Listbox"
    [("data-skin", Str "dropdown");
     ("value", Str (listbox_value selectedOption));
     ("onChange", Js "handleChange")]
    [Elem "div" [("className", Str "relative")]
       [Elem "ListboxButton"
          [("data-skin", Str "dropdown-button");
           ("className", Cn [Some buttonStyles_base; Some buttonStyles_skin])]
          [Elem "span" []
             [Text (match selectedOption with
                    | Some o => label o
                    | None => placeholder
                    end)];
           Elem "span"
             [("className", Str "absolute inset-y-0 right-0 flex items-center pr-2 pointer-events-none")]
             [Elem "ChevronDownIcon"
                [("data-skin", Str "dropdown-chevron");
                 ("className", Cn [Some chevronStyles_base; Some chevronStyles_skin]);
                 ("aria-hidden", Str "true")]
                []]];
        Elem "Transition"
          [("as", Js "Fragment");
           ("leave", Str "transition ease-in duration-100");
           ("leaveFrom", Str "opacity-100");
           ("leaveTo", Str "opacity-0")]
          [Elem "ListboxOptions"
             [("data-skin", Str "dropdown-options");
              ("as", Js "motion.ul");
              ("initial", Js "{ opacity: 0, y: -4 }");
              ("animate", Js "{ opacity: 1, y: 0 }");
              ("exit", Js "{ opacity: 0, y: -4 }");
              ("className", Cn [Some optionsStyles_base; Some optionsStyles_skin])]
             (map (render_option (listbox_value selectedOption))
                  (arr_items (options p)))]]].

(** What the button shows. *)
Definition displayed (tree : Node) : option string :=
  Vdom.text_of <$> Vdom.find_tag "ListboxButton" tree.

(** An options array to try things on. *)
Definition abc : Array :=
  {| arr_ref := 1;
     arr_items := [ {| label := "Alpha"; value := "a" |};
                    {| label := "Beta"; value := "b" |};
                    {| label := "Gamma"; value := "c" |} ] |}.

End Dropdown.

(** The class strings of the three components. *)
Definition all_styles : list string :=
  Button.styles ++ SearchBar.styles ++ Dropdown.styles.

(** ** The token-resolution model *)

Module Cascade.

(** Modelled from the spec: the Variant Resolver and the Cascade Evaluator
    of sections 3 and 4.3-4.4, with the data they work on (SkinPoint,
    Theme, SkinRule, VariantPredicate, ResolvedStyle) and the error
    taxonomy of section 7. The repository resolves styles through the
    browser's CSS cascade and has no code for any of this. *)

Inductive Value :=
| Literal (v : string)
| Reference (x : string).

Inductive SkinPoint := mkSkinPoint {
  sp_id : string;
  sp_parent : option SkinPoint;
  sp_exposed : list string
}.

(** The variant-set predicate of a rule; empty for a base rule. *)
Record SkinRule := {
  target : string;
  variable : string;
  predicate : gset string;
  rule_value : Value
}.

(** A theme may name a parent theme; the evaluator of section 4.4 reads
    the rules of the active theme only. *)
Inductive Theme := mkTheme {
  theme_id : string;
  theme_rules : list SkinRule;
  theme_parent : option Theme
}.

Inductive Error :=
| DuplicateIdentifier
| UnknownSkin
| UnknownTarget
| UnknownTheme
| CyclicReference
| UnresolvedVariable.

Inductive Warning :=
| DefaultUsed (x : string).

(** [Exhausted] is the answer of a run that was cut short; [resolve]
    below never gives it. *)
Inductive Outcome (A : Type) :=
| Ok (a : A) (warnings : list Warning)
| Err (e : Error)
| Exhausted.
Arguments Ok {A} a warnings.
Arguments Err {A} e.
Arguments Exhausted {A}.

(** *** Variant Resolver *)

Record ElementState := {
  st_hover : bool;
  st_active : bool;
  st_focus : bool;
  st_disabled : bool;
  st_attributes : gmap string string
}.

Inductive Condition :=
| Hover
| Active
| Focus
| Disabled
| AttrEquals (attr val : string).

Record VariantPredicate := { vp_name : string; vp_cond : Condition }.

Definition holds (c : Condition) (st : ElementState) : bool :=
  match c with
  | Hover => st_hover st
  | Active => st_active st
  | Focus => st_focus st
  | Disabled => st_disabled st
  | AttrEquals attr val => bool_decide (st_attributes st !! attr = Some val)
  end.

Definition builtins : list VariantPredicate :=
  [ {| vp_name := "hover"; vp_cond := Hover |};
    {| vp_name := "active"; vp_cond := Active |};
    {| vp_name := "focus"; vp_cond := Focus |};
    {| vp_name := "disabled"; vp_cond := Disabled |} ].

Definition activeVariants (custom : list VariantPredicate) (st : ElementState)
  : gset string :=
  list_to_set
    (map vp_name (List.filter (fun vp => holds (vp_cond vp) st) (builtins ++ custom))).

(** *** Cascade Evaluator *)

(** Step 1: the ancestor chain, root first, [p] last. *)
Fixpoint chain (p : SkinPoint) : list SkinPoint :=
  match p with
  | mkSkinPoint _ None _ => [p]
  | mkSkinPoint _ (Some q) _ => chain q ++ [p]
  end.

Definition exposes (q : SkinPoint) (x : string) : bool :=
  bool_decide (x ∈ sp_exposed q).

(** Step 2: the rules of [t] for SkinPoint [q] and its exposed variable
    [x], in declaration order. *)
Definition targets (q : SkinPoint) (x : string) (r : SkinRule) : bool :=
  String.eqb (target r) (sp_id q) && String.eqb (variable r) x.

Definition collect (t : Theme) (q : SkinPoint) (x : string) : list SkinRule :=
  if exposes q x then List.filter (targets q x) (theme_rules t) else [].

Definition defines (t : Theme) (q : SkinPoint) (x : string) : bool :=
  match collect t q x with
  | [] => false
  | _ :: _ => true
  end.

Definition is_base (r : SkinRule) : bool := bool_decide (predicate r = ∅).

(** A variant rule applies when its predicate is a non-empty subset of
    the active variant set. *)
Definition applies (V : gset string) (r : SkinRule) : bool :=
  negb (is_base r) && bool_decide (predicate r ⊆ V).

(** Step 3: the base rule is the starting value. *)
Definition base_value (rs : list SkinRule) : option Value :=
  rule_value <$> List.find is_base (rev rs).

(** Step 4: variant overrides in declaration order. *)
Definition override (V : gset string) (cur : option Value) (r : SkinRule)
  : option Value :=
  if applies V r then Some (rule_value r) else cur.

Definition value_at (t : Theme) (V : gset string) (q : SkinPoint) (x : string)
  : option Value :=
  let rs := collect t q x in
  fold_left (override V) rs (base_value rs).

(** Step 6: the deepest SkinPoint of the chain that defines a rule for
    [x] produces the value. *)
Definition deepest (t : Theme) (p : SkinPoint) (x : string) : option SkinPoint :=
  List.find (fun q => defines t q x) (rev (chain p)).

Definition cascade (t : Theme) (V : gset string) (p : SkinPoint) (x : string)
  : option Value :=
  match deepest t p x with
  | Some q => value_at t V q x
  | None => None
  end.

(** No value: the process-wide default with a warning, or
    [UnresolvedVariable]. *)
Definition fallback (dflt : string → option string) (x : string) : Outcome string :=
  match dflt x with
  | Some d => Ok d [DefaultUsed x]
  | None => Err UnresolvedVariable
  end.

(** Step 5: references are followed with a visited set. *)
Fixpoint resolve_from (fuel : nat) (visited : gset string)
    (t : Theme) (V : gset string) (dflt : string → option string)
    (p : SkinPoint) (x : string) : Outcome string :=
  match fuel with
  | O => Exhausted
  | S fuel' =>
      if bool_decide (x ∈ visited) then Err CyclicReference
      else match cascade t V p x with
           | None => fallback dflt x
           | Some (Literal v) => Ok v []
           | Some (Reference y) =>
               resolve_from fuel' (visited ∪ {[x]}) t V dflt p y
           end
  end.

(** Every step into a reference leaves a variable that has a rule, and
    never one already visited: more steps than rules cannot happen. *)
Definition resolve (t : Theme) (V : gset string) (dflt : string → option string)
    (p : SkinPoint) (x : string) : Outcome string :=
  resolve_from (S (List.length (theme_rules t))) ∅ t V dflt p x.



(** ResolvedStyle: variable name to concrete value, for every exposed
    variable of [p]. *)
Definition ResolvedStyle := gmap string string.

Fixpoint resolve_all (t : Theme) (V : gset string) (dflt : string → option string)
    (p : SkinPoint) (xs : list string) : Outcome ResolvedStyle :=
  match xs with
  | [] => Ok ∅ []
  | x :: rest =>
      match resolve t V dflt p x with
      | Ok v w1 =>
          match resolve_all t V dflt p rest with
          | Ok m w2 => Ok (<[x := v]> m) (w1 ++ w2)
          | Err e => Err e
          | Exhausted => Exhausted
          end
      | Err e => Err e
      | Exhausted => Exhausted
      end
  end.

(** The process-wide state a resolution runs in: the defaults, and the
    log the warnings go to. *)
Record World := {
  defaults : string → option string;
  log : list Warning
}.

Definition warnings_of {A} (o : Outcome A) : list Warning :=
  match o with
  | Ok _ w => w
  | _ => []
  end.

(** The snapshot an evaluation hands out, if it does. *)
Definition style_of {A} (o : Outcome A) : option A :=
  match o with
  | Ok a _ => Some a
  | _ => None
  end.

(** One invocation of the evaluator: a fresh snapshot, warnings logged. *)
Definition evaluate (p : SkinPoint) (t : Theme) (V : gset string) (w : World)
  : Outcome ResolvedStyle * World :=
  let o := resolve_all t V (defaults w) p (sp_exposed p) in
  (o, {| defaults := defaults w; log := log w ++ warnings_of o |}).

(** The scenario of the specification. *)
Definition button : SkinPoint :=
  {| sp_id := "button"; sp_parent := None; sp_exposed := ["bg"; "text"] |}.

Definition dark : Theme :=
  {| theme_id := "dark";
     theme_rules :=
       [ {| target := "button"; variable := "bg"; predicate := ∅;
            rule_value := Literal "black" |};
         {| target := "button"; variable := "bg"; predicate := {["hover"]};
            rule_value := Literal "dark-gray" |};
         {| target := "button"; variable := "bg"; predicate := {["disabled"]};
            rule_value := Literal "mid-gray" |} ];
     theme_parent := None |}.

Definition no_default : string → option string := fun _ => None.



(** *** Custom variants in long form *)

(** Process-wide state outside the theme system, which a custom variant
    written as a function could read or write. *)
Definition Store := gmap string string.

(** A custom variant in long form is an arbitrary test on the element
    state. Nothing in its shape keeps it from touching the store; the
    specification demands that it does not. *)
Record CustomVariant := {
  cv_name : string;
  cv_test : ElementState → Store → bool * Store
}.

(** A declared condition (built-in, or short form) as a test. *)
Definition declared (vp : VariantPredicate) : CustomVariant :=
  {| cv_name := vp_name vp;
     cv_test := fun st σ => (holds (vp_cond vp) st, σ) |}.


Fixpoint run_variants (cvs : list CustomVariant) (st : ElementState) (σ : Store)
  : list string * Store :=
  match cvs with
  | [] => ([], σ)
  | cv :: rest =>
      let '(b, σ1) := cv_test cv st σ in
      let '(names, σ2) := run_variants rest st σ1 in
      (if b then cv_name cv :: names else names, σ2)
  end.

(** The Variant Resolver over built-in and custom variants, run on a state
    change. *)
Definition resolveVariants (custom : list CustomVariant) (st : ElementState)
    (σ : Store) : gset string * Store :=
  let '(names, σ') := run_variants (map declared builtins ++ custom) st σ in
  (list_to_set names, σ').

Record Process := {
  proc_world : World;
  proc_store : Store
}.

(** One render of an element: the Variant Resolver, then the Cascade
    Evaluator on the variants it found. *)
Definition render (p : SkinPoint) (t : Theme) (custom : list CustomVariant)
    (st : ElementState) (pr : Process) : Outcome ResolvedStyle * Process :=
  let '(V, σ') := resolveVariants custom st (proc_store pr) in
  let '(o, w') := evaluate p t V (proc_world pr) in
  (o, {| proc_world := w'; proc_store := σ' |}).

(** A custom variant that is not pure: it holds the first time it is asked
    and never again. *)
Definition once : CustomVariant :=
  {| cv_name := "once";
     cv_test := fun _ σ =>
       (bool_decide (σ !! "seen" = None), <["seen" := "yes"]> σ) |}.

Definition badge : SkinPoint :=
  {| sp_id := "badge"; sp_parent := None; sp_exposed := ["bg"] |}.

Definition flashy : Theme :=
  {| theme_id := "flashy";
     theme_rules :=
       [ {| target := "badge"; variable := "bg"; predicate := ∅;
            rule_value := Literal "black" |};
         {| target := "badge"; variable := "bg"; predicate := {["once"]};
            rule_value := Literal "white" |} ];
     theme_parent := None |}.

Definition at_rest : ElementState :=
  {| st_hover := false; st_active := false; st_focus := false;
     st_disabled := false; st_attributes := ∅ |}.

Definition fresh : Process :=
  {| proc_world := {| defaults := fun _ => None; log := [] |};
     proc_store := ∅ |}.

(** The short-form custom variant of the convention. *)
Definition selected : VariantPredicate :=
  {| vp_name := "selected"; vp_cond := AttrEquals "aria-selected" "true" |}.



End Cascade.


(** ** Reading a rendered tree *)

Module Rendered.

Definition attrs_of (n : Node) : list (string * AttrVal) :=
  match n with
  | Elem _ attrs _ => attrs
  | Text _ => []
  end.

Definition children_of (n : Node) : list Node :=
  match n with
  | Elem _ _ children => children
  | Text _ => []
  end.

(** The value a props object holds for a key: the binding written last. *)
Definition last_binding (k : string) (props : list (string * AttrVal))
  : option AttrVal :=
  Vdom.get_attr k (rev props).

(** The [ListboxOption] rows of a rendered Dropdown. *)
Definition option_rows (tree : Node) : list Node :=
  from_option children_of [] (Vdom.find_tag "ListboxOptions" tree).

Definition row_value (row : Node) : option AttrVal :=
  Vdom.get_attr "value" (attrs_of row).

Definition row_key (row : Node) : option AttrVal :=
  Vdom.get_attr "key" (attrs_of row).

(** The text of the first child of a row: the span with the label. *)
Definition row_label (row : Node) : string :=
  match children_of row with
  | first :: _ => Vdom.text_of first
  | [] => ""
  end.

(** The value of the [value] prop handed to the list box. *)
Definition listbox_prop (tree : Node) : option AttrVal :=
  Vdom.get_attr "value" (attrs_of tree).

End Rendered.

(** ** A Dropdown over time *)

Module Lifecycle.
Import Dropdown.

(** What happens to a mounted Dropdown: the user picks a value, or the
    parent renders it again with new props. *)
Inductive Event :=
| Pick (val : string)
| Render (next : DropdownProps).

(** The props and the selection after a run of events. [handleChange]
    works with the props of the latest render. *)
Fixpoint after (p : DropdownProps) (s : State) (es : list Event)
  : DropdownProps * State :=
  match es with
  | [] => (p, s)
  | Pick val :: rest => after p (select p s val).1 rest
  | Render next :: rest => after next (rerender p s next) rest
  end.

(** Arrays are not changed in place between renders: the same array holds
    the same options. *)
Fixpoint arrays_kept (p : DropdownProps) (es : list Event) : Prop :=
  match es with
  | [] => True
  | Pick _ :: rest => arrays_kept p rest
  | Render next :: rest =>
      (arr_ref (options p) = arr_ref (options next) →
       arr_items (options p) = arr_items (options next))
      ∧ arrays_kept next rest
  end.

(** The selection is [null] or one of the options at hand. *)
Definition selection_ok (p : DropdownProps) (s : State) : Prop :=
  match s with
  | None => True
  | Some o => o ∈ arr_items (options p)
  end.

End Lifecycle.

(** * Properties *)

(** ** Skin identifiers and skin variables of the components *)

Section SkinNaming.
Import ClassNames.

Lemma hook_ok_spec (h : Hook) :
  hook_ok h = true ↔ hook_prop h = hook_var h ∧ hook_var h ∈ vocabulary.
Proof.
  unfold hook_ok. rewrite andb_true_iff, String.eqb_eq, bool_decide_eq_true.
  reflexivity.
Qed.

Lemma skin_ok_spec (s : string) :
  skin_ok s = true ↔
  Forall (fun h => hook_prop h = hook_var h ∧ hook_var h ∈ vocabulary) (hooks s)
  ∧ custom_props s = map hook_var (hooks s).
Proof.
  unfold skin_ok. rewrite andb_true_iff, bool_decide_eq_true, forallb_forall.
  rewrite List.Forall_forall.
  split; intros [H1 H2]; split; try assumption; intros h Hh.
  - apply hook_ok_spec, H1, Hh.
  - apply hook_ok_spec, H1, Hh.
Qed.

Lemma all_styles_checked : forallb skin_ok all_styles = true.
Proof. vm_compute. reflexivity. Qed.

(** C3. In every class string of every component (root and descendant
    elements alike) each CSS custom property occurs as [prop-(--prop)]:
    it is named after the Tailwind property it fills, and the name comes
    from the fixed vocabulary, all of which is in use. *)
Theorem skin_variables_named_after_property :
  Forall (fun s =>
            Forall (fun h => hook_prop h = hook_var h ∧ hook_var h ∈ vocabulary)
                   (hooks s)
            ∧ custom_props s = map hook_var (hooks s))
         all_styles
  ∧ list_to_set (flat_map custom_props all_styles)
    =@{gset string} list_to_set vocabulary.
Proof.
  split.
  - apply List.Forall_forall. intros s Hs.
    apply skin_ok_spec.
    pose proof all_styles_checked as H.
    rewrite forallb_forall in H. apply H, Hs.
  - vm_compute. reflexivity.
Qed.

End SkinNaming.

Section SkinIdentifiers.
Import Vdom.

Lemma get_attr_set_attr_ne (k k' : string) (v : AttrVal) attrs :
  k ≠ k' → get_attr k (set_attr k' v attrs) = get_attr k attrs.
Proof.
  intros Hne. induction attrs as [|[k0 v0] rest IH]; simpl.
  - destruct (String.eqb_spec k k'); congruence.
  - destruct (String.eqb_spec k' k0) as [->|Hk0]; simpl.
    + destruct (String.eqb_spec k k0); congruence.
    + rewrite IH. reflexivity.
Qed.

Lemma get_attr_spread (k : string) props : ∀ attrs,
  Forall (fun kv => kv.1 ≠ k) props →
  get_attr k (spread attrs props) = get_attr k attrs.
Proof.
  unfold spread. induction props as [|[k0 v0] rest IH]; intros attrs Hall; simpl.
  - reflexivity.
  - inversion Hall as [|? ? Hk Hrest]; subst. simpl in Hk.
    rewrite IH by assumption.
    apply get_attr_set_attr_ne. congruence.
Qed.

Lemma without_avoids (names : list string) props (k : string) :
  k ∈ names → Forall (fun kv => kv.1 ≠ k) (without names props).
Proof.
  intros Hk. apply List.Forall_forall. intros [k0 v0] Hin.
  apply filter_In in Hin as [_ Hf]. simpl in *.
  apply negb_true_iff, bool_decide_eq_false in Hf. congruence.
Qed.

(** C1 (the code departs from it). Whatever the props, the icon inside
    the SearchBar is a skinned child of the root [searchbar], its skin
    identifier is [icon], and [icon] does not begin with [searchbar]. *)
Theorem searchbar_icon_skin_not_prefixed (p : SearchBar.SearchBarProps) :
  root_skin (SearchBar.SearchBar p) = Some "searchbar"
  ∧ ("searchbar", "icon") ∈ skin_edges None (SearchBar.SearchBar p)
  ∧ "icon" ∈ child_skins (SearchBar.SearchBar p)
  ∧ String.prefix "searchbar" "icon" = false.
Proof.
  split; [reflexivity|].
  split; [|split; [|reflexivity]].
  - simpl. apply elem_of_cons. left. reflexivity.
  - simpl. apply elem_of_cons. left. reflexivity.
Qed.

Lemma option_skin_ids (current : string) (o : Dropdown.Option) :
  Forall (fun c => String.prefix "dropdown" c = true)
         (skin_ids (Dropdown.render_option current o)).
Proof.
  unfold Dropdown.render_option.
  destruct (String.eqb (Dropdown.value o) current); simpl;
    repeat constructor.
Qed.

(** Every skin identifier below the Dropdown root begins with the root
    identifier [dropdown]. *)
Lemma dropdown_skins_prefixed_by_root (p : Dropdown.DropdownProps) (s : Dropdown.State) :
  root_skin (Dropdown.Dropdown p s) = Some "dropdown"
  ∧ Forall (fun c => String.prefix "dropdown" c = true)
           (child_skins (Dropdown.Dropdown p s)).
Proof.
  split; [reflexivity|].
  simpl. repeat (apply Forall_cons; split; [reflexivity|]).
  rewrite !app_nil_r.
  induction (Dropdown.arr_items (Dropdown.options p)) as [|o rest IH].
  - constructor.
  - cbn [map flat_map]. apply Forall_app. split; [apply option_skin_ids | exact IH].
Qed.

(** Against the nearest skinned element above, the chevron inside the
    Dropdown button is not prefixed by [dropdown-button]. *)
Lemma dropdown_chevron_edge (p : Dropdown.DropdownProps) (s : Dropdown.State) :
  ("dropdown-button", "dropdown-chevron") ∈ skin_edges None (Dropdown.Dropdown p s)
  ∧ String.prefix "dropdown-button" "dropdown-chevron" = false.
Proof.
  split; [|reflexivity].
  simpl. apply elem_of_cons. right. apply elem_of_cons. left. reflexivity.
Qed.

(** C10. The SearchBar container carries the skin of its variant
    ([default] when the prop is absent): the custom properties its own
    class strings reference are [--bg] and [--text] for [default],
    [--outline] and [--text] (no [--bg]) for [outline], followed by
    whatever the caller's [className] brings; the icon and the input
    reference [--text] only, under either variant. *)
Theorem searchbar_variant_hooks (p : SearchBar.SearchBarProps) :
  ClassNames.custom_props (SearchBar.containerStyles_skin SearchBar.default_)
    = ["bg"; "text"]
  ∧ ClassNames.custom_props (SearchBar.containerStyles_skin SearchBar.outline)
    = ["outline"; "text"]
  ∧ ("bg" ∉ ClassNames.custom_props (SearchBar.containerStyles_skin SearchBar.outline))
  ∧ own_custom_props (SearchBar.SearchBar p)
    = (ClassNames.custom_props
         (SearchBar.containerStyles_skin
            (default SearchBar.default_ (SearchBar.variant p)))
       ++ from_option ClassNames.custom_props [] (SearchBar.className p))%list
  ∧ (own_custom_props <$> find_tag "MagnifyingGlassIcon" (SearchBar.SearchBar p))
    = Some ["text"]
  ∧ (list_to_set <$> (own_custom_props <$> find_tag "input" (SearchBar.SearchBar p)))
    = Some ({["text"]} : gset string).
Proof.
  split; [reflexivity|]. split; [reflexivity|].
  split; [vm_compute; intros H; repeat (apply elem_of_cons in H as [H|H]; [discriminate|]);
          inversion H|].
  split.
  { unfold own_custom_props, own_classes. simpl.
    destruct (SearchBar.className p); simpl; rewrite ?app_nil_r; reflexivity. }
  split; [reflexivity|].
  unfold own_custom_props, own_classes. simpl.
  rewrite get_attr_spread.
  - vm_compute. reflexivity.
  - apply without_avoids. set_solver.
Qed.

End SkinIdentifiers.

(** ** The Dropdown's selection *)

Section DropdownSelection.
Import Vdom Dropdown.

Lemma append_empty_r (s : string) : s ++ "" = s.
Proof.
  induction s as [|c s IH]; [reflexivity|].
  change (String c s ++ "") with (String c (s ++ "")). now rewrite IH.
Qed.

Lemma find_option_Some (opts : Array) (v : option string) (o : Option) :
  find_option opts v = Some o → o ∈ arr_items opts ∧ Some (value o) = v.
Proof.
  unfold find_option. intros H. apply find_some in H as [Hin Heq].
  split; [now apply list_elem_of_In|].
  destruct v as [v|]; simpl in Heq; [|discriminate].
  apply String.eqb_eq in Heq. now subst.
Qed.

Lemma find_option_None (opts : Array) (v : option string) :
  find_option opts v = None ↔ ∀ o, o ∈ arr_items opts → Some (value o) ≠ v.
Proof.
  unfold find_option. split.
  - intros H o Hin Heq.
    pose proof (find_none _ _ H o (proj1 (list_elem_of_In _ _) Hin)) as Hf.
    subst v. simpl in Hf. now rewrite String.eqb_refl in Hf.
  - intros H. destruct (find _ _) as [o|] eqn:Hfind; [|reflexivity].
    apply find_some in Hfind as [Hin Heq].
    destruct v as [v|]; simpl in Heq; [|discriminate].
    apply String.eqb_eq in Heq.
    exfalso. apply (H o); [now apply list_elem_of_In | now subst].
Qed.

Lemma displayed_selected (p : DropdownProps) (o : Option) :
  displayed (Dropdown p (Some o)) = Some (label o).
Proof.
  unfold displayed. simpl.
  change (("" ++ "") ++ "") with "". now rewrite !append_empty_r.
Qed.

Lemma displayed_unselected (p : DropdownProps) :
  displayed (Dropdown p None) = Some (default default_placeholder (placeholder p)).
Proof.
  unfold displayed. simpl.
  change (("" ++ "") ++ "") with "". now rewrite !append_empty_r.
Qed.

(** C5. Selecting an option value [val] that occurs in the options calls
    [onChange], when there is one, once and with [val] (no call is made
    otherwise), and the selection becomes the first option of the list
    whose value is [val]; the button then shows that option's label. *)
Theorem select_calls_onChange_once
    (p : DropdownProps) (s : State) (val : string)
    (Hval : val ∈ map value (arr_items (options p))) :
  ∃ o, (select p s val).1 = Some o
     ∧ find_option (options p) (Some val) = Some o
     ∧ o ∈ arr_items (options p)
     ∧ value o = val
     ∧ displayed (Dropdown p (select p s val).1) = Some (label o)
     ∧ (select p s val).2
       = match onChange p with
         | Some cb => [(cb, val)]
         | None => []
         end.
Proof.
  destruct (find_option (options p) (Some val)) as [o|] eqn:Hfind.
  - exists o. destruct (find_option_Some _ _ _ Hfind) as [Hin Hv].
    assert (Hsel : (select p s val).1 = Some o).
    { unfold select, handleChange. rewrite Hfind.
      destruct (onChange p); reflexivity. }
    rewrite Hsel. repeat split; try assumption.
    + congruence.
    + apply displayed_selected.
    + unfold select, handleChange. destruct (onChange p); reflexivity.
  - exfalso. apply list_elem_of_fmap in Hval as (o & -> & Hin).
    rewrite find_option_None in Hfind. now apply (Hfind o).
Qed.

Lemma select_calls_onChange_once_witness :
  ∃ o, (select {| options := abc; value_ := None; onChange := Some 7;
                  placeholder := None |} None "b").1 = Some o
     ∧ label o = "Beta".
Proof.
  destruct (select_calls_onChange_once
              {| options := abc; value_ := None; onChange := Some 7;
                 placeholder := None |} None "b")
    as (o & Hsel & Hfind & _).
  - vm_compute. apply list_elem_of_further, list_elem_of_here.
  - exists o. split; [exact Hsel|].
    vm_compute in Hfind. now inversion Hfind.
Defined.




End DropdownSelection.

(** ** Configuration surfaces *)

Section ConfigurationSurface.
Import Vdom.

(** C4 as stated fails: two Dropdowns given the same [options], [value]
    and [onChange] render differently, because a fourth prop,
    [placeholder], is part of the surface. *)
Lemma dropdown_surface_has_placeholder :
  let p1 := {| Dropdown.options := Dropdown.Build_Array 1 [];
               Dropdown.value_ := None; Dropdown.onChange := None;
               Dropdown.placeholder := None |} in
  let p2 := {| Dropdown.options := Dropdown.Build_Array 1 [];
               Dropdown.value_ := None; Dropdown.onChange := None;
               Dropdown.placeholder := Some "Pick one" |} in
  Dropdown.options p1 = Dropdown.options p2
  ∧ Dropdown.value_ p1 = Dropdown.value_ p2
  ∧ Dropdown.onChange p1 = Dropdown.onChange p2
  ∧ Dropdown.displayed (Dropdown.Dropdown p1 (Dropdown.mount p1))
    = Some "Select an option..."
  ∧ Dropdown.displayed (Dropdown.Dropdown p2 (Dropdown.mount p2))
    = Some "Pick one"
  ∧ Dropdown.Dropdown p1 (Dropdown.mount p1)
    ≠ Dropdown.Dropdown p2 (Dropdown.mount p2).
Proof.
  repeat split; try reflexivity.
  intros H. apply (f_equal Dropdown.displayed) in H.
  vm_compute in H. discriminate.
Qed.

(** C4, amended. Button: [size] is one of [sm], [md], [lg] ([sm] when
    absent) and picks the size classes. SearchBar: [variant] is one of
    [default], [outline] ([default] when absent) and picks the container
    skin. Dropdown: [options], [value], [onChange] and [placeholder]:
    the first commit selects by [options] and [value], the rendering does
    not depend on [onChange], a selection calls [onChange] whatever the
    placeholder, and the placeholder is shown while nothing is selected. *)
Theorem configuration_surface :
  (∀ s : Button.Size, s = Button.sm ∨ s = Button.md ∨ s = Button.lg)
  ∧ (∀ p : Button.ButtonProps,
       own_classes (Button.Button p)
       = ([Button.baseStyles; Button.skinStyles;
           Button.sizeStyles (default Button.sm (Button.size p))]
          ++ from_option (fun c => [c]) [] (Button.className p))%list)
  ∧ NoDup (map Button.sizeStyles [Button.sm; Button.md; Button.lg])
  ∧ (∀ v : SearchBar.Variant, v = SearchBar.default_ ∨ v = SearchBar.outline)
  ∧ (∀ p : SearchBar.SearchBarProps,
       own_classes (SearchBar.SearchBar p)
       = ([SearchBar.containerStyles_base;
           SearchBar.containerStyles_skin
             (default SearchBar.default_ (SearchBar.variant p))]
          ++ from_option (fun c => [c]) [] (SearchBar.className p))%list)
  ∧ SearchBar.containerStyles_skin SearchBar.default_
    ≠ SearchBar.containerStyles_skin SearchBar.outline
  ∧ (∀ opts v cb ph,
       Dropdown.mount
         {| Dropdown.options := opts; Dropdown.value_ := v;
            Dropdown.onChange := cb; Dropdown.placeholder := ph |}
       = Dropdown.find_option opts v)
  ∧ (∀ opts v cb cb' ph s,
       Dropdown.Dropdown
         {| Dropdown.options := opts; Dropdown.value_ := v;
            Dropdown.onChange := cb; Dropdown.placeholder := ph |} s
       = Dropdown.Dropdown
           {| Dropdown.options := opts; Dropdown.value_ := v;
              Dropdown.onChange := cb'; Dropdown.placeholder := ph |} s)
  ∧ (∀ opts v cb ph s val,
       (Dropdown.select
          {| Dropdown.options := opts; Dropdown.value_ := v;
             Dropdown.onChange := Some cb; Dropdown.placeholder := ph |}
          s val).2 = [(cb, val)])
  ∧ (∀ p : Dropdown.DropdownProps,
       Dropdown.displayed (Dropdown.Dropdown p None)
       = Some (default "Select an option..." (Dropdown.placeholder p))).
Proof.
  split; [intros []; auto|].
  split.
  { intros p. unfold own_classes, Button.Button.
    rewrite get_attr_spread by (apply without_avoids; set_solver).
    simpl. destruct (Button.className p); reflexivity. }
  split.
  { apply (bool_decide_unpack _). vm_compute. exact I. }
  split; [intros []; auto|].
  split.
  { intros p. unfold own_classes. simpl.
    destruct (SearchBar.className p); reflexivity. }
  split; [discriminate|].
  split; [reflexivity|].
  split; [reflexivity|].
  split; [reflexivity|].
  apply displayed_unselected.
Qed.

End ConfigurationSurface.

(** ** The Cascade Evaluator *)

Section CascadeOrder.
Import Cascade.

Lemma fold_override_inactive (V : gset string) (l : list SkinRule) :
  (∀ r, r ∈ l → applies V r = false) →
  ∀ cur, fold_left (override V) l cur = cur.
Proof.
  induction l as [|r l IH]; intros Hl cur; simpl; [reflexivity|].
  unfold override at 2. rewrite (Hl r) by apply list_elem_of_here.
  apply IH. intros r' Hr'. apply Hl. now apply list_elem_of_further.
Qed.

Lemma fold_override_last (V : gset string) (l1 l2 : list SkinRule) (r : SkinRule) :
  applies V r = true →
  (∀ r', r' ∈ l2 → applies V r' = false) →
  ∀ cur, fold_left (override V) (l1 ++ r :: l2) cur = Some (rule_value r).
Proof.
  intros Hr Hl2 cur. rewrite fold_left_app. simpl.
  rewrite fold_override_inactive by assumption.
  unfold override. now rewrite Hr.
Qed.

(** C2. Among the rules collected for a SkinPoint and a variable, the
    variant rule that applies under [V] and is declared after every other
    one that applies gives the value. In the scenario (base [black],
    [hover] gives [dark-gray], [disabled] declared after it gives
    [mid-gray]) the button's [bg] is [black] with no variant active,
    [dark-gray] under [hover], and [mid-gray] under [hover] and
    [disabled]. *)
Theorem last_declared_variant_wins :
  (∀ (t : Theme) (V : gset string) (q : SkinPoint) (x : string)
     (l1 l2 : list SkinRule) (r : SkinRule),
      collect t q x = (l1 ++ r :: l2)%list →
      applies V r = true →
      (∀ r', r' ∈ l2 → applies V r' = false) →
      value_at t V q x = Some (rule_value r))
  ∧ resolve dark ∅ no_default button "bg" = Ok "black" []
  ∧ resolve dark {["hover"]} no_default button "bg" = Ok "dark-gray" []
  ∧ resolve dark {["hover"; "disabled"]} no_default button "bg"
    = Ok "mid-gray" [].
Proof.
  split.
  - intros t V q x l1 l2 r Hc Hr Hl2. unfold value_at. rewrite Hc.
    now apply fold_override_last.
  - repeat split; vm_compute; reflexivity.
Qed.

Lemma last_declared_variant_wins_witness :
  value_at dark {["hover"; "disabled"]} button "bg" = Some (Literal "mid-gray").
Proof.
  apply (proj1 last_declared_variant_wins dark {["hover"; "disabled"]} button "bg"
           [ {| target := "button"; variable := "bg"; predicate := ∅;
                rule_value := Literal "black" |};
             {| target := "button"; variable := "bg"; predicate := {["hover"]};
                rule_value := Literal "dark-gray" |} ]
           []
           {| target := "button"; variable := "bg"; predicate := {["disabled"]};
              rule_value := Literal "mid-gray" |}).
  - vm_compute. reflexivity.
  - vm_compute. reflexivity.
  - intros r' Hr'. inversion Hr'.
Defined.

End CascadeOrder.

Section CascadeFallback.
Import Cascade.

Lemma find_all_false {A} (f : A → bool) (l : list A) :
  (∀ a, a ∈ l → f a = false) → List.find f l = None.
Proof.
  induction l as [|a l IH]; intros H; simpl; [reflexivity|].
  rewrite (H a) by apply list_elem_of_here.
  apply IH. intros b Hb. apply H. now apply list_elem_of_further.
Qed.

Lemma cascade_undefined (t : Theme) (V : gset string) (p : SkinPoint) (x : string) :
  (∀ q, q ∈ chain p → defines t q x = false) → cascade t V p x = None.
Proof.
  intros H. unfold cascade, deepest.
  rewrite find_all_false; [reflexivity|].
  intros q Hq. apply H.
  apply list_elem_of_In, in_rev in Hq. now apply list_elem_of_In.
Qed.

(** C6. For an exposed variable [x] of [p] that no SkinPoint of [p]'s
    ancestor chain has a rule for in the theme: resolution fails with
    [UnresolvedVariable] when there is no process-wide default, and gives
    the default, with one warning and no error, when there is one. *)
Theorem unthemed_variable_falls_back
    (t : Theme) (V : gset string) (dflt : string → option string)
    (p : SkinPoint) (x : string)
    (Hexposed : x ∈ sp_exposed p)
    (Hnone : ∀ q, q ∈ chain p → defines t q x = false) :
  (dflt x = None → resolve t V dflt p x = Err UnresolvedVariable)
  ∧ (∀ d, dflt x = Some d → resolve t V dflt p x = Ok d [DefaultUsed x]).
Proof.
  assert (Hr : resolve t V dflt p x = fallback dflt x).
  { unfold resolve. simpl.
    rewrite bool_decide_eq_false_2 by set_solver.
    now rewrite cascade_undefined. }
  rewrite Hr. unfold fallback.
  split; [intros ->; reflexivity | intros d ->; reflexivity].
Qed.

Lemma unthemed_variable_falls_back_witness :
  resolve dark {["hover"]} no_default button "text" = Err UnresolvedVariable
  ∧ resolve dark {["hover"]} (fun _ => Some "gray") button "text"
    = Ok "gray" [DefaultUsed "text"].
Proof.
  split.
  - apply (unthemed_variable_falls_back dark {["hover"]} no_default button "text").
    + set_solver.
    + intros q Hq. apply list_elem_of_singleton in Hq as ->. reflexivity.
    + reflexivity.
  - apply (unthemed_variable_falls_back dark {["hover"]} (fun _ => Some "gray")
             button "text").
    + set_solver.
    + intros q Hq. apply list_elem_of_singleton in Hq as ->. reflexivity.
    + reflexivity.
Defined.

End CascadeFallback.

Section CascadeReferences.
Import Cascade.













End CascadeReferences.

Section CascadeDeterminism.
Import Cascade.




Lemma run_variants_declared (vps : list VariantPredicate) (st : ElementState) (σ : Store) :
  run_variants (map declared vps) st σ
  = (map vp_name (List.filter (fun vp => holds (vp_cond vp) st) vps), σ).
Proof.
  induction vps as [|vp vps IH]; [reflexivity|].
  cbn [map run_variants declared cv_test cv_name List.filter]. rewrite IH.
  destruct (holds (vp_cond vp) st); reflexivity.
Qed.

(** Short form and long form agree: custom variants declared by a
    condition resolve as the declarative resolver says, store untouched. *)
Lemma resolveVariants_declared (custom : list VariantPredicate)
    (st : ElementState) (σ : Store) :
  resolveVariants (map declared custom) st σ = (activeVariants custom st, σ).
Proof.
  unfold resolveVariants, activeVariants.
  rewrite <- map_app, run_variants_declared. reflexivity.
Qed.


(** With a custom variant that is not pure the same render, repeated, gives
    another snapshot. *)
Lemma impure_variant_not_repeatable :
  style_of (render badge flashy [once] at_rest fresh).1
    ≫= (fun m => m !! "bg") = Some "white"
  ∧ style_of (render badge flashy [once] at_rest
                (render badge flashy [once] at_rest fresh).2).1
    ≫= (fun m => m !! "bg") = Some "black".
Proof. split; vm_compute; reflexivity. Qed.



End CascadeDeterminism.

(** ** Props handed through to the native element *)

Section PropsPassThrough.
Import Vdom Rendered.

Lemma get_attr_app (k : string) (l1 l2 : list (string * AttrVal)) :
  get_attr k (l1 ++ l2)
  = match get_attr k l1 with
    | Some v => Some v
    | None => get_attr k l2
    end.
Proof.
  induction l1 as [|[k0 v0] l1 IH]; simpl; [reflexivity|].
  destruct (String.eqb k k0); [reflexivity | exact IH].
Qed.

Lemma get_attr_set_attr_eq (k : string) (v : AttrVal) attrs :
  get_attr k (set_attr k v attrs) = Some v.
Proof.
  induction attrs as [|[k0 v0] rest IH]; simpl.
  - now rewrite String.eqb_refl.
  - destruct (String.eqb_spec k k0) as [->|Hne]; simpl.
    + now rewrite String.eqb_refl.
    + destruct (String.eqb_spec k k0); [congruence | exact IH].
Qed.

(** A spread key replaces what was written before it; among spread keys the
    last binding counts. *)
Lemma get_attr_spread_last (k : string) props : ∀ attrs,
  get_attr k (spread attrs props)
  = match last_binding k props with
    | Some v => Some v
    | None => get_attr k attrs
    end.
Proof.
  unfold spread, last_binding.
  induction props as [|[k0 v0] rest IH]; intros attrs; [reflexivity|].
  cbn [fold_left rev fst snd]. rewrite IH, get_attr_app.
  destruct (get_attr k (rev rest)); [reflexivity|].
  simpl. destruct (String.eqb_spec k k0) as [->|Hne].
  - apply get_attr_set_attr_eq.
  - now apply get_attr_set_attr_ne.
Qed.

Lemma get_attr_without (names : list string) (k : string) props :
  k ∉ names → get_attr k (without names props) = get_attr k props.
Proof.
  intros Hk. unfold without.
  induction props as [|[k0 v0] rest IH]; simpl; [reflexivity|].
  case_bool_decide as Hin; simpl.
  - destruct (String.eqb_spec k k0); [congruence | exact IH].
  - destruct (String.eqb_spec k k0); [reflexivity | exact IH].
Qed.

Lemma last_binding_without (names : list string) (k : string) props :
  k ∉ names → last_binding k (without names props) = last_binding k props.
Proof.
  intros Hk. unfold last_binding, without.
  rewrite <- filter_rev. now apply get_attr_without.
Qed.

(** X1. Any prop given to the Button other than [size], [className] and
    [children] ends up on the [button] element with the value given; a key
    not given keeps what the component wrote ([data-skin], [className]) or
    stays absent. *)
Theorem button_props_pass_through
    (p : Button.ButtonProps) (k : string)
    (Hk : k ∉ ["size"; "className"; "children"]) :
  get_attr k (attrs_of (Button.Button p))
  = match last_binding k (Button.props p) with
    | Some v => Some v
    | None =>
        get_attr k
          [("data-skin", Str "button");
           ("className",
            Cn [Some Button.baseStyles; Some Button.skinStyles;
                Some (Button.sizeStyles (default Button.sm (Button.size p)));
                Button.className p])]
    end.
Proof.
  unfold Button.Button, attrs_of.
  rewrite get_attr_spread_last, last_binding_without by assumption.
  reflexivity.
Qed.

Lemma button_props_pass_through_witness :
  get_attr "disabled"
    (attrs_of (Button.Button
       {| Button.size := Some Button.lg; Button.className := None;
          Button.children := [Text "Go"];
          Button.props := [("disabled", Str "true")] |}))
  = Some (Str "true").
Proof.
  rewrite (button_props_pass_through _ "disabled").
  - reflexivity.
  - intros H. repeat (apply elem_of_cons in H as [H|H]; [discriminate|]).
    inversion H.
Defined.

(** X2. The Button's skin identifier is [button] unless the caller passes a
    [data-skin] prop: the spread comes after the component's own attribute,
    so the caller's value takes its place. *)
Theorem button_skin_identifier (p : Button.ButtonProps) :
  root_skin (Button.Button p)
  = match last_binding "data-skin" (Button.props p) with
    | None => Some "button"
    | Some (Str v) => Some v
    | Some _ => None
    end.
Proof.
  unfold root_skin, Button.Button, data_skin.
  rewrite get_attr_spread_last, last_binding_without.
  - destruct (last_binding "data-skin" (Button.props p)) as [[v|args|e]|];
      reflexivity.
  - intros H. repeat (apply elem_of_cons in H as [H|H]; [discriminate|]).
    inversion H.
Qed.

(** X3. The props of the SearchBar go to its [input]: a key other than
    [variant], [className] and [children] is on the input with the value
    given, [type] is [search] unless the caller gives one, and the input's
    class list is the component's whatever is passed. The container and the
    icon carry no prop of the caller. *)
Theorem searchbar_props_reach_input
    (p : SearchBar.SearchBarProps) (k : string)
    (Hk : k ∉ ["variant"; "className"; "children"]) :
  (get_attr k <$> (attrs_of <$> find_tag "input" (SearchBar.SearchBar p)))
  = Some match last_binding k (SearchBar.props p) with
         | Some v => Some v
         | None =>
             get_attr k
               [("type", Str "search");
                ("className", Cn [Some SearchBar.inputStyles_base;
                                  Some SearchBar.inputStyles_skin])]
         end
  ∧ (get_attr "className" <$> (attrs_of <$> find_tag "input" (SearchBar.SearchBar p)))
    = Some (Some (Cn [Some SearchBar.inputStyles_base;
                      Some SearchBar.inputStyles_skin]))
  ∧ (attrs_of <$> find_tag "MagnifyingGlassIcon" (SearchBar.SearchBar p))
    = Some [("data-skin", Str "icon");
            ("className", Cn [Some SearchBar.iconStyles_base;
                              Some SearchBar.iconStyles_skin])]
  ∧ map fst (attrs_of (SearchBar.SearchBar p)) = ["data-skin"; "className"].
Proof.
  split; [|split; [|split; reflexivity]].
  - simpl. rewrite get_attr_spread_last, last_binding_without by assumption.
    reflexivity.
  - simpl. rewrite get_attr_spread by (apply without_avoids; set_solver).
    reflexivity.
Qed.

Lemma searchbar_props_reach_input_witness :
  (get_attr "type" <$>
     (attrs_of <$>
        find_tag "input"
          (SearchBar.SearchBar
             {| SearchBar.variant := None; SearchBar.className := None;
                SearchBar.children := [];
                SearchBar.props := [("placeholder", Str "Find")] |})))
  = Some (Some (Str "search")).
Proof.
  rewrite (proj1 (searchbar_props_reach_input _ "type" ltac:(set_solver))).
  reflexivity.
Defined.

(** X4. The skin identifiers of a SearchBar are [searchbar] and [icon], in
    that order, and nothing else unless the caller passes a [data-skin]
    prop, which lands on the input. *)
Theorem searchbar_skin_ids (p : SearchBar.SearchBarProps) :
  skin_ids (SearchBar.SearchBar p)
  = (["searchbar"; "icon"]
     ++ match last_binding "data-skin" (SearchBar.props p) with
        | Some (Str v) => [v]
        | _ => []
        end)%list.
Proof.
  simpl. unfold data_skin at 1.
  rewrite get_attr_spread_last, last_binding_without by set_solver.
  simpl.
  destruct (last_binding "data-skin" (SearchBar.props p)) as [[v|args|e]|];
    reflexivity.
Qed.

End PropsPassThrough.

(** ** The Dropdown across commits *)

Section DropdownLifecycle.
Import Vdom Dropdown Rendered.

Lemma select_state (p : DropdownProps) (s : State) (val : string) :
  (select p s val).1 = find_option (options p) (Some val).
Proof. unfold select, handleChange. destruct (onChange p); reflexivity. Qed.

Lemma select_calls (p : DropdownProps) (s : State) (val : string) :
  (select p s val).2
  = match onChange p with
    | Some cb => [(cb, val)]
    | None => []
    end.
Proof. unfold select, handleChange. destruct (onChange p); reflexivity. Qed.

Lemma rerender_changed (prev : DropdownProps) (s : State) (next : DropdownProps) :
  arr_ref (options prev) ≠ arr_ref (options next) ∨ value_ prev ≠ value_ next →
  rerender prev s next = find_option (options next) (value_ next).
Proof.
  intros Hch. unfold rerender, deps_changed. destruct Hch as [Hr|Hv].
  - apply Nat.eqb_neq in Hr. now rewrite Hr.
  - rewrite (bool_decide_eq_false_2 _ Hv), orb_true_r. reflexivity.
Qed.

Lemma rerender_cases (prev : DropdownProps) (s : State) (next : DropdownProps) :
  rerender prev s next = s
  ∨ rerender prev s next = find_option (options next) (value_ next).
Proof.
  unfold rerender. destruct (deps_changed prev next); [right | left]; reflexivity.
Qed.

(** X5. Selecting a value that no option has clears the selection: the
    button goes back to the placeholder, and [onChange], when given, is
    still called once with that value. *)
Theorem select_unknown_value
    (p : DropdownProps) (s : State) (val : string)
    (Hval : val ∉ map value (arr_items (options p))) :
  (select p s val).1 = None
  ∧ displayed (Dropdown p (select p s val).1)
    = Some (default "Select an option..." (placeholder p))
  ∧ (select p s val).2
    = match onChange p with
      | Some cb => [(cb, val)]
      | None => []
      end.
Proof.
  assert (Hnone : (select p s val).1 = None).
  { rewrite select_state. apply find_option_None.
    intros o Ho Heq. apply Hval. inversion Heq; subst.
    now apply list_elem_of_fmap_2. }
  rewrite Hnone. split; [reflexivity|].
  split; [apply displayed_unselected | apply select_calls].
Qed.

Lemma select_unknown_value_witness :
  (select {| options := abc; value_ := Some "a"; onChange := Some 3;
             placeholder := None |}
          (Some {| label := "Alpha"; value := "a" |}) "zz")
  = (None, [(3, "zz")]).
Proof.
  pose proof (select_unknown_value
                {| options := abc; value_ := Some "a"; onChange := Some 3;
                   placeholder := None |}
                (Some {| label := "Alpha"; value := "a" |}) "zz") as H.
  destruct H as (H1 & _ & H2).
  - vm_compute. intros H.
    repeat (apply elem_of_cons in H as [H|H]; [discriminate|]). inversion H.
  - rewrite (surjective_pairing (select _ _ _)), H1, H2. reflexivity.
Defined.

(** X6. A commit in which [options] is the same array and [value] is the
    same string leaves the selection alone, a selection the user made
    included, and whatever the array now holds. *)
Theorem rerender_keeps_selection
    (prev : DropdownProps) (s : State) (next : DropdownProps)
    (Href : arr_ref (options prev) = arr_ref (options next))
    (Hvalue : value_ prev = value_ next) :
  rerender prev s next = s.
Proof.
  unfold rerender, deps_changed.
  rewrite Href, Nat.eqb_refl, (bool_decide_eq_true_2 _ Hvalue). reflexivity.
Qed.

Lemma rerender_keeps_selection_witness :
  let p := {| options := abc; value_ := None; onChange := None;
              placeholder := None |} in
  rerender p (select p (mount p) "b").1
           {| options := abc; value_ := None; onChange := Some 1;
              placeholder := Some "Pick" |}
  = Some {| label := "Beta"; value := "b" |}.
Proof.
  simpl. rewrite rerender_keeps_selection; reflexivity.
Defined.

(** X7. Without a [value] prop, a commit that brings a new options array
    clears the selection, even when the new array holds the same options
    and the user had picked one of them. *)
Theorem uncontrolled_selection_reset
    (prev : DropdownProps) (s : State) (next : DropdownProps)
    (Href : arr_ref (options prev) ≠ arr_ref (options next))
    (Hvalue : value_ next = None) :
  rerender prev s next = None
  ∧ displayed (Dropdown next (rerender prev s next))
    = Some (default "Select an option..." (placeholder next)).
Proof.
  assert (H : rerender prev s next = None).
  { rewrite rerender_changed by now left.
    rewrite Hvalue. apply find_option_None. intros o _. discriminate. }
  rewrite H. split; [reflexivity | apply displayed_unselected].
Qed.

Lemma uncontrolled_selection_reset_witness :
  let p := {| options := abc; value_ := None; onChange := None;
              placeholder := None |} in
  let p' := {| options := {| arr_ref := 2; arr_items := arr_items abc |};
               value_ := None; onChange := None; placeholder := None |} in
  (select p (mount p) "b").1 = Some {| label := "Beta"; value := "b" |}
  ∧ rerender p (select p (mount p) "b").1 p' = None.
Proof.
  simpl. split; [reflexivity|].
  apply uncontrolled_selection_reset; [simpl; lia | reflexivity].
Defined.

(** X8. When the parent answers a selection by passing the selected value
    back as [value], with the same options, the next commit keeps the
    selection that [handleChange] made, whether or not the effect runs. *)
Theorem controlled_selection_stable
    (p : DropdownProps) (s : State) (val : string) (next : DropdownProps)
    (Hitems : arr_items (options next) = arr_items (options p))
    (Hvalue : value_ next = Some val) :
  rerender p (select p s val).1 next = (select p s val).1.
Proof.
  destruct (rerender_cases p (select p s val).1 next) as [H|H];
    rewrite H; [reflexivity|].
  rewrite select_state, Hvalue. unfold find_option. now rewrite Hitems.
Qed.

Lemma controlled_selection_stable_witness :
  let p := {| options := abc; value_ := Some "a"; onChange := Some 1;
              placeholder := None |} in
  rerender p (select p (mount p) "c").1
           {| options := {| arr_ref := 5; arr_items := arr_items abc |};
              value_ := Some "c"; onChange := Some 1; placeholder := None |}
  = Some {| label := "Gamma"; value := "c" |}.
Proof.
  intros p. rewrite (controlled_selection_stable p (mount p) "c"); reflexivity.
Defined.

(** X9. When the [value] prop is the value of some option, the first
    commit selects the first such option: the button shows its label and
    the list box is given that value. *)
Theorem mount_selects_value
    (p : DropdownProps) (v : string)
    (Hvalue : value_ p = Some v)
    (Hin : v ∈ map value (arr_items (options p))) :
  ∃ o, mount p = Some o
     ∧ o ∈ arr_items (options p)
     ∧ value o = v
     ∧ displayed (Dropdown p (mount p)) = Some (label o)
     ∧ listbox_prop (Dropdown p (mount p)) = Some (Str v).
Proof.
  assert (Hm : mount p = find_option (options p) (Some v))
    by (unfold mount; simpl; now rewrite Hvalue).
  destruct (find_option (options p) (Some v)) as [o|] eqn:Hfind.
  - destruct (find_option_Some _ _ _ Hfind) as [Ho Hv].
    exists o. rewrite Hm. inversion Hv; subst.
    repeat split; try assumption; try reflexivity.
    apply displayed_selected.
  - exfalso. rewrite find_option_None in Hfind.
    apply list_elem_of_fmap in Hin as (o & -> & Ho). now apply (Hfind o).
Qed.

Lemma mount_selects_value_witness :
  ∃ o, mount {| options := abc; value_ := Some "c"; onChange := None;
                placeholder := None |} = Some o
     ∧ value o = "c".
Proof.
  destruct (mount_selects_value
              {| options := abc; value_ := Some "c"; onChange := None;
                 placeholder := None |} "c")
    as (o & Hm & _ & Hv & _).
  - reflexivity.
  - vm_compute. do 2 apply list_elem_of_further. apply list_elem_of_here.
  - exists o. split; assumption.
Defined.

(** X10. Of several options with one value only the first can be selected:
    picking that value, from whichever row, selects the first option that
    has it and shows the first one's label. *)
Theorem duplicate_value_selects_first
    (p : DropdownProps) (s : State) (before after : list Option) (o : Option)
    (Hitems : arr_items (options p) = (before ++ o :: after)%list)
    (Hbefore : ∀ o', o' ∈ before → value o' ≠ value o) :
  (select p s (value o)).1 = Some o
  ∧ displayed (Dropdown p (select p s (value o)).1) = Some (label o).
Proof.
  assert (H : (select p s (value o)).1 = Some o).
  { rewrite select_state. unfold find_option. rewrite Hitems.
    clear Hitems. induction before as [|b before IH]; simpl.
    - now rewrite String.eqb_refl.
    - destruct (String.eqb_spec (value b) (value o)) as [Heq|_].
      + exfalso. apply (Hbefore b); [apply list_elem_of_here | exact Heq].
      + apply IH. intros o' Ho'. apply Hbefore. now apply list_elem_of_further. }
  rewrite H. split; [reflexivity | apply displayed_selected].
Qed.

Lemma duplicate_value_selects_first_witness :
  let opts := {| arr_ref := 9;
                 arr_items := [ {| label := "One"; value := "x" |};
                                {| label := "Two"; value := "y" |};
                                {| label := "Three"; value := "y" |} ] |} in
  let p := {| options := opts; value_ := None; onChange := None;
              placeholder := None |} in
  displayed (Dropdown p (select p None (value {| label := "Three"; value := "y" |})).1)
  = Some "Two".
Proof.
  simpl.
  apply (duplicate_value_selects_first
           {| options := {| arr_ref := 9;
                            arr_items := [ {| label := "One"; value := "x" |};
                                           {| label := "Two"; value := "y" |};
                                           {| label := "Three"; value := "y" |} ] |};
              value_ := None; onChange := None; placeholder := None |}
           None
           [ {| label := "One"; value := "x" |} ]
           [ {| label := "Three"; value := "y" |} ]
           {| label := "Two"; value := "y" |}).
  - reflexivity.
  - intros o' Ho'. apply list_elem_of_singleton in Ho' as ->. discriminate.
Defined.

End DropdownLifecycle.

(** ** The rows of the Dropdown *)

Section DropdownRows.
Import Vdom Dropdown Rendered Lifecycle.

Lemma option_rows_render (p : DropdownProps) (s : State) :
  option_rows (Dropdown p s)
  = map (render_option (listbox_value s)) (arr_items (options p)).
Proof. reflexivity. Qed.

(** X11. The list shows one row per option, in the order of [options]:
    the row's label is the option's label, its [value] and its [key] are
    the option's value, whatever is selected. *)
Theorem options_rendered_in_order (p : DropdownProps) (s : State) :
  map row_label (option_rows (Dropdown p s)) = map label (arr_items (options p))
  ∧ map row_value (option_rows (Dropdown p s))
    = map (fun o => Some (Str (value o))) (arr_items (options p))
  ∧ map row_key (option_rows (Dropdown p s))
    = map (fun o => Some (Str (value o))) (arr_items (options p))
  ∧ List.length (option_rows (Dropdown p s)) = List.length (arr_items (options p)).
Proof.
  rewrite option_rows_render.
  induction (arr_items (options p)) as [|o rest (IH1 & IH2 & IH3 & IH4)].
  - repeat split.
  - cbn [map List.length]. rewrite IH1, IH2, IH3, IH4.
    repeat split.
    f_equal. unfold row_label. simpl. apply append_empty_r.
Qed.

(** X14. From the first commit on, through any picks by the user and any
    renders by the parent that do not change an options array in place, the
    selection is [null] or one of the options of the latest render. *)
Theorem selection_among_options (es : list Event) :
  ∀ (p : DropdownProps) (s : State),
    selection_ok p s →
    arrays_kept p es →
    selection_ok (after p s es).1 (after p s es).2.
Proof.
  induction es as [|[val|next] rest IH]; intros p s Hok Hkept; simpl.
  - exact Hok.
  - apply IH; [|exact Hkept].
    rewrite select_state. unfold selection_ok.
    destruct (find_option _ _) as [o|] eqn:Hf; [|exact I].
    now apply find_option_Some in Hf as [Ho _].
  - destruct Hkept as [Hsame Hkept]. apply IH; [|exact Hkept].
    unfold rerender, deps_changed.
    destruct (Nat.eqb_spec (arr_ref (options p)) (arr_ref (options next)))
      as [Href|Href]; simpl.
    + case_bool_decide; simpl.
      * unfold selection_ok in *. destruct s as [o|]; [|exact I].
        now rewrite <- (Hsame Href).
      * unfold selection_ok.
        destruct (find_option _ _) as [o|] eqn:Hf; [|exact I].
        now apply find_option_Some in Hf as [Ho _].
    + unfold selection_ok.
      destruct (find_option _ _) as [o|] eqn:Hf; [|exact I].
      now apply find_option_Some in Hf as [Ho _].
Qed.

Lemma selection_among_options_witness :
  let p := {| options := abc; value_ := Some "a"; onChange := None;
              placeholder := None |} in
  let p' := {| options := {| arr_ref := 2;
                             arr_items := [ {| label := "Beta"; value := "b" |} ] |};
               value_ := Some "a"; onChange := None; placeholder := None |} in
  selection_ok (after p (mount p) [Pick "c"; Render p'; Pick "b"]).1
               (after p (mount p) [Pick "c"; Render p'; Pick "b"]).2.
Proof.
  intros p p'. apply selection_among_options.
  - vm_compute. apply list_elem_of_here.
  - simpl. split; [intros H; discriminate | exact I].
Defined.

End DropdownRows.
